(** * rastreador.py: a shallow embedding of the cryptocurrency tracker

    The script is a single straight-line Streamlit page: it draws a title
    and a select box, issues one HTTP GET (requests), writes the status
    code, and on status 200 reshapes the JSON price series into a
    time-indexed pandas table that is drawn as a line chart and as a
    five-row tail.

    The page is modelled as a computation in a small state-and-exception
    monad.  The state is the world the script acts on: the elements drawn
    on the page so far and the HTTP requests sent so far.  An exception
    aborts the rest of the script and keeps what was already drawn, which
    is how a Python exception leaves a Streamlit page.  The HTTP server is
    an argument of the script. *)

From Stdlib Require Import ZArith SpecFloat.
From stdpp Require Import base option list gmap strings.

Local Open Scope Z_scope.

(** ** Exceptions and results *)

(** The Python exceptions the libraries called by the script may raise. *)
Inductive exn :=
| RequestException (reason : string)   (* requests: no response was obtained *)
| JSONDecodeError                      (* response.json() on a non-JSON body *)
| KeyError (key : string)              (* dict or DataFrame lookup *)
| IndexError                           (* list index out of range *)
| OutOfBoundsDatetime.                 (* pandas: datetime64[ns] overflow *)

Inductive result (A : Type) :=
| Ok (a : A)
| Raise (e : exn).
Arguments Ok {A} a.
Arguments Raise {A} e.

#[global] Instance result_ret : MRet result := @Ok.
#[global] Instance result_bind : MBind result := λ A B f r,
  match r with
  | Ok a => f a
  | Raise e => Raise e
  end.

(** [traverse f l] applies [f] to every element from left to right and
    stops at the first exception: an element-wise library call that
    raises as a whole when one element raises. *)
Fixpoint traverse {A B} (f : A → result B) (l : list A) : result (list B) :=
  match l with
  | [] => Ok []
  | x :: l' => y ← f x; ys ← traverse f l'; Ok (y :: ys)
  end.

(** ** pandas: timestamps, columns, frames *)

(** A [Timestamp] is pandas' datetime64[ns]: a signed 64-bit count of
    nanoseconds since 1970-01-01T00:00:00, the least 64-bit value being
    reserved for NaT. *)
Record Timestamp := mkTimestamp { value : Z }.

Definition int64_min : Z := -9223372036854775808.
Definition int64_max : Z := 9223372036854775807.

(** Nanoseconds per millisecond, the multiplier of [unit="ms"]. *)
Definition ns_per_ms : Z := 1000000.

Definition fits_datetime64 (ns : Z) : bool :=
  (int64_min <? ns) && (ns <=? int64_max).

(** [pd.to_datetime(t, unit="ms")] on one integer, with the default
    [errors="raise"].  This is exact on the values whose nanosecond count
    fits.  Outside them it follows the documented behaviour, the raise;
    the library itself lets the NaT sentinel [-2^63] through as NaT and
    reads a column of unsigned 64-bit values as signed ones, so the
    statements that go outside the range name the values they are
    about. *)
Definition to_datetime_ms (t : Z) : result Timestamp :=
  if fits_datetime64 (t * ns_per_ms)
  then Ok (mkTimestamp (t * ns_per_ms))
  else Raise OutOfBoundsDatetime.

(** A column of a frame with its dtype. *)
Inductive column :=
| Int64 (xs : list Z)
| Float64 (xs : list spec_float)
| Datetime64 (xs : list Timestamp).

Definition column_length (c : column) : nat :=
  match c with
  | Int64 xs => length xs
  | Float64 xs => length xs
  | Datetime64 xs => length xs
  end.

(** The last [n] entries of a list, all of them when there are fewer. *)
Definition last_n {A} (n : nat) (l : list A) : list A :=
  drop (length l - n) l.

Definition column_tail (n : nat) (c : column) : column :=
  match c with
  | Int64 xs => Int64 (last_n n xs)
  | Float64 xs => Float64 (last_n n xs)
  | Datetime64 xs => Datetime64 (last_n n xs)
  end.

(** The row labels: the default [RangeIndex(start, stop)] or a column
    promoted by [set_index]. *)
Inductive Index :=
| RangeIndex (start stop : nat)
| ColumnIndex (name : string) (values : column).

Definition index_length (i : Index) : nat :=
  match i with
  | RangeIndex start stop => (stop - start)%nat
  | ColumnIndex _ c => column_length c
  end.

Definition index_tail (n : nat) (i : Index) : Index :=
  match i with
  | RangeIndex start stop => RangeIndex (stop - (n `min` (stop - start)))%nat stop
  | ColumnIndex name c => ColumnIndex name (column_tail n c)
  end.

(** A frame: its index and its named columns, in column order. *)
Record DataFrame := mkDataFrame {
  index : Index;
  columns : list (string * column)
}.

Definition nrows (df : DataFrame) : nat := index_length (index df).

(** The JSON series of the market-chart payload: an array of
    [[epoch_ms, number]] pairs, the first an integer and the second a
    binary64 float. *)
Definition series : Type := list (Z * spec_float).

(** [pd.DataFrame(data, columns=[c1, c2])] on an array of pairs: one row
    per pair in the order of the array, a fresh range index. *)
Definition pd_DataFrame (data : series) (c1 c2 : string) : DataFrame :=
  {| index := RangeIndex 0 (length data);
     columns := [(c1, Int64 data.*1); (c2, Float64 data.*2)] |}.

Fixpoint find_column (name : string) (cols : list (string * column)) : option column :=
  match cols with
  | [] => None
  | (n, c) :: cols' => if decide (n = name) then Some c else find_column name cols'
  end.

(** [df[name]] *)
Definition getitem (df : DataFrame) (name : string) : result column :=
  match find_column name (columns df) with
  | Some c => Ok c
  | None => Raise (KeyError name)
  end.

Fixpoint replace_column (name : string) (c : column) (cols : list (string * column))
  : list (string * column) :=
  match cols with
  | [] => [(name, c)]
  | (n, c') :: cols' =>
      if decide (n = name) then (n, c) :: cols' else (n, c') :: replace_column name c cols'
  end.

(** [df[name] = c] for a series [c] carrying the index of [df]: the column
    is replaced in place, or appended when the name is new. *)
Definition setitem (df : DataFrame) (name : string) (c : column) : DataFrame :=
  {| index := index df; columns := replace_column name c (columns df) |}.

(** [df.set_index(name, inplace=True)]: the column becomes the index and
    is dropped from the ordinary columns. *)
Definition set_index (df : DataFrame) (name : string) : result DataFrame :=
  c ← getitem df name;
  Ok {| index := ColumnIndex name c;
        columns := filter (λ nc, nc.1 ≠ name) (columns df) |}.

(** [df.tail(n)] *)
Definition tail (n : nat) (df : DataFrame) : DataFrame :=
  {| index := index_tail n (index df);
     columns := (λ nc, (nc.1, column_tail n nc.2)) <$> columns df |}.

(** ** The world of the script: the page and the network *)

(** One positional argument of [st.write]. *)
Inductive arg :=
| AStr (s : string)
| AInt (n : Z)
| AFrame (df : DataFrame).

(** The elements a run draws on the page, in drawing order. *)
Inductive element :=
| Title (body : string)
| Selectbox (label : string) (options : list string) (index : nat)
| Write (args : list arg)
| LineChart (data : DataFrame)
| Error (body : string).

(** A value of the [params] dict of [requests.get]. *)
Inductive param :=
| PStr (s : string)
| PInt (n : Z).

Record request := mkRequest {
  url : string;
  params : gmap string param
}.

(** What the script reads of a response: its status code and the outcome
    of [response.json()], a JSON object of named series. *)
Record response := mkResponse {
  status_code : Z;
  json : result (gmap string series)
}.

Record world := mkWorld {
  page : list element;
  sent : list request
}.

Definition blank : world := {| page := []; sent := [] |}.

(** ** The script monad *)

Definition Script (A : Type) : Type := world → world * result A.

#[global] Instance Script_ret : MRet Script := λ A a w, (w, Ok a).
#[global] Instance Script_bind : MBind Script := λ A B f m w,
  match m w with
  | (w', Ok a) => f a w'
  | (w', Raise e) => (w', Raise e)
  end.

(** A pure library call inside the script. *)
Definition lift {A} (r : result A) : Script A := λ w, (w, r).

Definition draw (e : element) : Script unit :=
  λ w, ({| page := page w ++ [e]; sent := sent w |}, Ok ()).

(** ** Streamlit and requests *)

Definition st_title (body : string) : Script unit := draw (Title body).

(** [st.selectbox(label, options)] with the default [index=0].  [ui] is
    the position the browser holds for the widget, [None] as long as the
    user has not touched it.  The value is [options[position]], and
    Python's [None] when there are no options. *)
Definition st_selectbox (label : string) (options : list string) (ui : option nat)
  : Script (option string) :=
  let position := default 0%nat ui in
  chosen ← lift (match options with
                 | [] => Ok None
                 | _ => match options !! position with
                        | Some o => Ok (Some o)
                        | None => Raise IndexError
                        end
                 end);
  draw (Selectbox label options position);;
  mret chosen.

Definition st_write (args : list arg) : Script unit := draw (Write args).
Definition st_line_chart (data : DataFrame) : Script unit := draw (LineChart data).
Definition st_error (body : string) : Script unit := draw (Error body).

(** [requests.get(url, params=params)] against the server [get]: the
    request goes out, then the server's answer or the transport exception
    comes back. *)
Definition requests_get (get : request → result response)
    (url : string) (params : gmap string param) : Script response :=
  λ w, let rq := {| url := url; params := params |} in
       ({| page := page w; sent := sent w ++ [rq] |}, get rq).

(** [dados[key]] on a Python dict. *)
Definition dict_getitem {V} (d : gmap string V) (key : string) : result V :=
  match d !! key with
  | Some v => Ok v
  | None => Raise (KeyError key)
  end.

(** An f-string field [{x}]: [str(x)]. *)
Definition format (x : option string) : string := default "None" x.

(** ** The script *)

Section Rastreador.

(** pandas' conversion of a float64 epoch value.  The script only ever
    converts the integer column, so this path is left to the library. *)
Variable float_to_datetime_ms : spec_float → result Timestamp.

(** [pd.to_datetime(c, unit="ms")] on a column: every entry is
    converted, and one entry out of bounds raises for the whole call. *)
Definition pd_to_datetime_ms (c : column) : result column :=
  match c with
  | Int64 xs => ts ← traverse to_datetime_ms xs; Ok (Datetime64 ts)
  | Float64 xs => ts ← traverse float_to_datetime_ms xs; Ok (Datetime64 ts)
  | Datetime64 xs => Ok (Datetime64 xs)
  end.

(** Lines 18 to 20: the table of the price series, indexed by time. *)
Definition shape (dados : gmap string series) : result DataFrame :=
  prices ← dict_getitem dados "prices";
  let df := pd_DataFrame prices "timestamp" "price" in
  raw ← getitem df "timestamp";
  stamps ← pd_to_datetime_ms raw;
  let df := setitem df "timestamp" stamps in
  set_index df "timestamp".

Definition moedas : list string := ["bitcoin"; "ethereum"; "dogecoin"].

(** Line 9 *)
Definition market_chart_url (moeda : option string) : string :=
  "https://api.coingecko.com/api/v3/coins/" +:+ format moeda +:+ "/market_chart".

(** Line 10 *)
Definition market_chart_params : gmap string param :=
  <["days" := PInt 7]> (<["vs_currency" := PStr "usd"]> ∅).

(** The whole page, top to bottom. *)
Definition rastreador (get : request → result response) (ui : option nat)
  : Script unit :=
  st_title "💹 Rastreador de Criptomoedas";;
  moeda ← st_selectbox "Selecione a Criptomoeda:" moedas ui;
  let url := market_chart_url moeda in
  let params := market_chart_params in
  response ← requests_get get url params;
  st_write [AStr "Status code:"; AInt (status_code response)];;
  if decide (status_code response = 200) then
    dados ← lift (json response);
    df ← lift (shape dados);
    st_line_chart df;;
    st_write [AFrame (tail 5 df)]
  else
    st_error "Erro ao buscar dados da API".

(** One page load: the script on a blank page with nothing sent yet. *)
Definition run (get : request → result response) (ui : option nat)
  : world * result unit :=
  rastreador get ui blank.

(** The request of line 12 for the currency [moeda]. *)
Definition market_chart_request (moeda : string) : request :=
  {| url := market_chart_url (Some moeda); params := market_chart_params |}.

End Rastreador.

(** ** Lines 18 to 20 on the Python heap

    [dados] is one object, and lines 19 and 20 change the frame built on
    line 18 in place.  Here the payload and the frames live on a heap: a
    list of objects, a reference being a position in it.  A computation
    that follows a reference holding no object of the expected kind is
    stuck ([None]); references made by the program itself never are. *)

Inductive object :=
| Dict (fields : gmap string series)
| Frame (df : DataFrame).

Abbreviation heap := (list object).

Definition InPlace (A : Type) : Type := heap → option (heap * result A).

#[global] Instance InPlace_ret : MRet InPlace := λ A a h, Some (h, Ok a).
#[global] Instance InPlace_bind : MBind InPlace := λ A B f m h,
  match m h with
  | Some (h', Ok a) => f a h'
  | Some (h', Raise e) => Some (h', Raise e)
  | None => None
  end.

(** A library call that reads and writes no object. *)
Definition call {A} (r : result A) : InPlace A := λ h, Some (h, r).

(** A new object, at the end of the heap. *)
Definition alloc (o : object) : InPlace nat :=
  λ h, Some (h ++ [o], Ok (length h)).

Definition read_dict (ref : nat) : InPlace (gmap string series) :=
  λ h, match h !! ref with
       | Some (Dict d) => Some (h, Ok d)
       | _ => None
       end.

Definition read_frame (ref : nat) : InPlace DataFrame :=
  λ h, match h !! ref with
       | Some (Frame df) => Some (h, Ok df)
       | _ => None
       end.

(** The frame behind [ref] becomes [df]: every holder of [ref] sees it. *)
Definition write_frame (ref : nat) (df : DataFrame) : InPlace unit :=
  λ h, match h !! ref with
       | Some (Frame _) => Some (<[ref := Frame df]> h, Ok ())
       | _ => None
       end.

(** Lines 18 to 20 as written: a frame is built from the payload behind
    [dados], then changed in place twice; the result is the reference
    [df]. *)
Definition shape_in_place (float_to_datetime_ms : spec_float → result Timestamp)
    (dados : nat) : InPlace nat :=
  payload ← read_dict dados;
  prices ← call (dict_getitem payload "prices");
  df ← alloc (Frame (pd_DataFrame prices "timestamp" "price"));
  (* df["timestamp"] = pd.to_datetime(df["timestamp"], unit="ms") *)
  frame ← read_frame df;
  raw ← call (getitem frame "timestamp");
  stamps ← call (pd_to_datetime_ms float_to_datetime_ms raw);
  write_frame df (setitem frame "timestamp" stamps);;
  (* df.set_index("timestamp", inplace=True) *)
  frame ← read_frame df;
  indexed ← call (set_index frame "timestamp");
  write_frame df indexed;;
  mret df.

(** The shaping step run twice in a row on the same payload object. *)
Definition shape_twice (float_to_datetime_ms : spec_float → result Timestamp)
    (dados : nat) : InPlace (nat * nat) :=
  first ← shape_in_place float_to_datetime_ms dados;
  second ← shape_in_place float_to_datetime_ms dados;
  mret (first, second).

(** ** Vocabulary of the statements *)

(** The epoch-millisecond values whose nanosecond count fits
    datetime64[ns]. *)
Definition representable (t : Z) : Prop :=
  int64_min < t * ns_per_ms ≤ int64_max.

(** The times the conversion refuses whatever the column they sit in: not
    representable, not the NaT sentinel, and not in the unsigned range
    above [int64_max] that a column of unsigned values reads as signed. *)
Definition refused (t : Z) : Prop :=
  ¬ representable t ∧ t ≠ int64_min ∧ ¬ (int64_max < t < 2 ^ 64).

(** The instant [t] milliseconds after the epoch. *)
Definition stamp_of_ms (t : Z) : Timestamp := mkTimestamp (t * ns_per_ms).

(** Modelled from the spec: the reading of a calendar timestamp back as
    epoch-milliseconds.  The script never converts back; this is the whole
    number of milliseconds in the nanosecond count (Python's [//]). *)
Definition to_epoch_ms (ts : Timestamp) : Z := value ts `div` ns_per_ms.

(** [shown] holds the chronologically last rows of [table]: the rows of
    [table] are those of [shown] and some others, none of them later than
    a shown one. *)
Definition chronologically_last (table shown : list Timestamp) : Prop :=
  ∃ others, table ≡ₚ others ++ shown ∧
            ∀ o s, o ∈ others → s ∈ shown → value o ≤ value s.

(** The times of a series never go back. *)
Definition ascending (ts : list Z) : Prop :=
  ∀ i j a b, (i ≤ j)%nat → ts !! i = Some a → ts !! j = Some b → a ≤ b.

(** The table of a series whose times are all representable: the instants
    as the index, in the order of the series, and the one column that is
    left. *)
Definition shaped (pts : series) : DataFrame :=
  {| index := ColumnIndex "timestamp" (Datetime64 (stamp_of_ms <$> pts.*1));
     columns := [("price", Float64 pts.*2)] |}.

(** The two elements every page load starts with. *)
Definition header (ui : option nat) : list element :=
  [Title "💹 Rastreador de Criptomoedas";
   Selectbox "Selecione a Criptomoeda:" ["bitcoin"; "ethereum"; "dogecoin"]
             (default 0%nat ui)].

Definition status_line (code : Z) : element :=
  Write [AStr "Status code:"; AInt code].

(** The instants of a time-indexed frame, in row order. *)
Definition index_stamps (df : DataFrame) : list Timestamp :=
  match index df with
  | ColumnIndex _ (Datetime64 ts) => ts
  | _ => []
  end.

(** ** Concrete servers and payloads for the examples *)

(** A float path for the closed examples; any would do, see
    [shape_float_path]. *)
Definition no_float_path : spec_float → result Timestamp :=
  λ _, Raise OutOfBoundsDatetime.

(** The server that answers [r] to every request, and the one that is
    unreachable. *)
Definition answers (r : response) : request → result response := λ _, Ok r.
Definition unreachable : request → result response :=
  λ _, Raise (RequestException "connection refused").

(** A 200 response whose JSON object has the one field [prices]. *)
Definition success (pts : series) : response :=
  {| status_code := 200; json := Ok {["prices" := pts]} |}.

(** binary64 1.0 and 2.0 *)
Definition one : spec_float := S754_finite false 4503599627370496 (-52).
Definition two : spec_float := S754_finite false 4503599627370496 (-51).

(** Three points one hour apart, in time order. *)
Definition three_hours : series :=
  [(1700000000000, one); (1700003600000, two); (1700007200000, one)].

(** Six points, the latest of them first. *)
Definition latest_first : series :=
  [(6000, two); (1000, one); (2000, one); (3000, one); (4000, one); (5000, one)].

(** One point whose time is beyond any 64-bit count. *)
Definition beyond_int64 : series :=
  [(1000000000000000000000000000000, one)].

(** ** Lemmas on the library model *)

Lemma fits_datetime64_spec (t : Z) :
  fits_datetime64 (t * ns_per_ms) = true ↔ representable t.
Proof.
  unfold fits_datetime64, representable.
  rewrite andb_true_iff, Z.ltb_lt, Z.leb_le. tauto.
Qed.

Lemma to_datetime_ms_representable (t : Z) :
  representable t → to_datetime_ms t = Ok (stamp_of_ms t).
Proof.
  intros Ht. unfold to_datetime_ms.
  apply fits_datetime64_spec in Ht. now rewrite Ht.
Qed.

Lemma to_datetime_ms_inv (t : Z) (ts : Timestamp) :
  to_datetime_ms t = Ok ts → representable t ∧ ts = stamp_of_ms t.
Proof.
  unfold to_datetime_ms.
  destruct (fits_datetime64 (t * ns_per_ms)) eqn:E; [|discriminate].
  intros [= <-]. split; [now apply fits_datetime64_spec | reflexivity].
Qed.

Lemma traverse_to_datetime_ms (ts : list Z) :
  Forall representable ts →
  traverse to_datetime_ms ts = Ok (stamp_of_ms <$> ts).
Proof.
  induction 1 as [|t ts Ht _ IH]; [reflexivity|].
  cbn [traverse]. rewrite (to_datetime_ms_representable t Ht).
  cbn. rewrite IH. reflexivity.
Qed.

Lemma last_n_length {A} (n : nat) (l : list A) :
  length (last_n n l) = (n `min` length l)%nat.
Proof. unfold last_n. rewrite length_drop. lia. Qed.

Lemma last_n_fmap {A B} (f : A → B) (n : nat) (l : list A) :
  last_n n (f <$> l) = f <$> last_n n l.
Proof. unfold last_n. now rewrite length_fmap, fmap_drop. Qed.

Section ShapeLemmas.

Variable float_to_datetime_ms : spec_float → result Timestamp.

Lemma shape_prices (d : gmap string series) (pts : series) :
  d !! "prices" = Some pts →
  shape float_to_datetime_ms d =
    (stamps ← traverse to_datetime_ms pts.*1;
     Ok {| index := ColumnIndex "timestamp" (Datetime64 stamps);
           columns := [("price", Float64 pts.*2)] |}).
Proof.
  intros Hd. unfold shape, dict_getitem. rewrite Hd.
  cbv zeta. cbn [mbind result_bind].
  change (getitem (pd_DataFrame pts "timestamp" "price") "timestamp")
    with (Ok (Int64 pts.*1)).
  cbn [mbind result_bind pd_to_datetime_ms].
  destruct (traverse to_datetime_ms pts.*1); reflexivity.
Qed.

Lemma shape_representable (d : gmap string series) (pts : series) :
  d !! "prices" = Some pts →
  Forall representable pts.*1 →
  shape float_to_datetime_ms d = Ok (shaped pts).
Proof.
  intros Hd Hr. rewrite (shape_prices d pts Hd).
  now rewrite (traverse_to_datetime_ms _ Hr).
Qed.

Lemma shape_missing (d : gmap string series) :
  d !! "prices" = None →
  shape float_to_datetime_ms d = Raise (KeyError "prices").
Proof. intros Hd. unfold shape, dict_getitem. now rewrite Hd. Qed.

End ShapeLemmas.

(** The float path of [pd.to_datetime] never runs: the table depends on
    the payload alone. *)
Lemma shape_float_path (f g : spec_float → result Timestamp) (d : gmap string series) :
  shape f d = shape g d.
Proof.
  destruct (d !! "prices") as [pts|] eqn:Hd.
  - now rewrite !(shape_prices _ d pts Hd).
  - now rewrite !shape_missing.
Qed.

(** ** One page load, case by case *)

Ltac unfold_script :=
  unfold run, rastreador, st_title, st_selectbox, st_write, st_line_chart,
         st_error, requests_get, draw, lift, blank, market_chart_request.

Ltac reduce_script :=
  unfold moedas;
  cbv beta iota zeta delta [mbind mret Script_bind Script_ret result_bind];
  cbn [page sent app].

Section RunLemmas.

Variable float_to_datetime_ms : spec_float → result Timestamp.
Variable get : request → result response.
Variable ui : option nat.
Variable moeda : string.
Hypothesis selected : moedas !! default 0%nat ui = Some moeda.

Let rq := market_chart_request moeda.

Lemma run_no_response (e : exn) :
  get rq = Raise e →
  run float_to_datetime_ms get ui
  = ({| page := header ui; sent := [rq] |}, Raise e).
Proof.
  subst rq. unfold_script. rewrite selected. reduce_script.
  intros ->. reflexivity.
Qed.

Lemma run_not_200 (r : response) :
  get rq = Ok r →
  status_code r ≠ 200 →
  run float_to_datetime_ms get ui
  = ({| page := header ui ++ [status_line (status_code r);
                              Error "Erro ao buscar dados da API"];
        sent := [rq] |}, Ok ()).
Proof.
  subst rq. unfold_script. rewrite selected. reduce_script.
  intros -> Hcode. destruct (decide (status_code r = 200)); [contradiction|].
  reflexivity.
Qed.

Lemma run_200 (r : response) :
  get rq = Ok r →
  status_code r = 200 →
  run float_to_datetime_ms get ui
  = match dados ← json r; shape float_to_datetime_ms dados with
    | Ok df =>
        ({| page := header ui ++ [status_line 200; LineChart df;
                                  Write [AFrame (tail 5 df)]];
            sent := [rq] |}, Ok ())
    | Raise e =>
        ({| page := header ui ++ [status_line 200]; sent := [rq] |}, Raise e)
    end.
Proof.
  subst rq. unfold_script. rewrite selected. reduce_script.
  intros -> Hcode. destruct (decide (status_code r = 200)); [|contradiction].
  rewrite Hcode. destruct (json r) as [dados|e']; [|reflexivity].
  destruct (shape float_to_datetime_ms dados); reflexivity.
Qed.

End RunLemmas.

Lemma tail_shaped (n : nat) (pts : series) :
  tail n (shaped pts) = shaped (last_n n pts).
Proof.
  unfold tail, shaped. cbn. now rewrite !last_n_fmap.
Qed.

Lemma nrows_shaped (pts : series) : nrows (shaped pts) = length pts.
Proof. unfold nrows, shaped. cbn. now rewrite !length_fmap. Qed.

(** In a series in time order the last rows are the latest ones. *)
Lemma ascending_last_n (n : nat) (ts : list Z) :
  ascending ts →
  chronologically_last (stamp_of_ms <$> ts) (stamp_of_ms <$> last_n n ts).
Proof.
  intros Hasc. exists (stamp_of_ms <$> take (length ts - n) ts). split.
  - unfold last_n. now rewrite <- fmap_app, take_drop.
  - intros o s Ho Hs.
    apply list_elem_of_fmap in Ho as (a & -> & Ha).
    apply list_elem_of_fmap in Hs as (b & -> & Hb).
    apply list_elem_of_lookup in Ha as (i & Hi).
    apply list_elem_of_lookup in Hb as (j & Hj).
    unfold last_n in Hj. rewrite lookup_drop in Hj.
    apply lookup_take_Some in Hi as (Hi & Hlt).
    assert (a ≤ b) by (eapply (Hasc i (length ts - n + j)%nat); [lia|done..]).
    unfold stamp_of_ms, ns_per_ms. cbn. lia.
Qed.

(** ** The claims *)

(** C1: for each of the three currency identifiers, when it is the
    selected one the page load sends exactly one request; its URL is the
    API base followed by the path segment /coins/{identifier}/market_chart
    with that exact identifier, and its query parameters are exactly
    vs_currency=usd and days=7. *)
Theorem request_for_selected_currency
    (f : spec_float → result Timestamp) (get : request → result response)
    (ui : option nat) (c : string) :
  ["bitcoin"; "ethereum"; "dogecoin"] !! default 0%nat ui = Some c →
  sent (run f get ui).1 =
    [{| url := "https://api.coingecko.com/api/v3" +:+ "/coins/" +:+ c +:+ "/market_chart";
        params := {["vs_currency" := PStr "usd"; "days" := PInt 7]} |}].
Proof.
  intros Hsel.
  assert (Hp : market_chart_params
               = {["vs_currency" := PStr "usd"; "days" := PInt 7]}).
  { unfold market_chart_params. rewrite insert_insert_ne by done.
    now rewrite insert_empty. }
  assert (Hs : sent (run f get ui).1 = [market_chart_request c]).
  { destruct (get (market_chart_request c)) as [r|e] eqn:Hget.
    - destruct (decide (status_code r = 200)) as [H200|H200].
      + rewrite (run_200 f get ui c Hsel r Hget H200).
        now destruct (dados ← json r; shape f dados).
      + now rewrite (run_not_200 f get ui c Hsel r Hget H200).
    - now rewrite (run_no_response f get ui c Hsel e Hget). }
  rewrite Hs. unfold market_chart_request, market_chart_url. rewrite Hp.
  reflexivity.
Qed.

Lemma request_for_selected_currency_witness :
  sent (run no_float_path unreachable (Some 2%nat)).1 =
    [{| url := "https://api.coingecko.com/api/v3" +:+ "/coins/" +:+ "dogecoin" +:+ "/market_chart";
        params := {["vs_currency" := PStr "usd"; "days" := PInt 7]} |}].
Proof.
  apply (request_for_selected_currency no_float_path unreachable (Some 2%nat) "dogecoin").
  reflexivity.
Defined.



(** C7: whenever the HTTP call returns a response, the page shows the
    line "Status code:" with the numeric status code of that response,
    whatever the code is and whatever happens afterwards. *)
Theorem status_code_always_shown
    (f : spec_float → result Timestamp) (get : request → result response)
    (ui : option nat) (c : string) (r : response) :
  moedas !! default 0%nat ui = Some c →
  get (market_chart_request c) = Ok r →
  Write [AStr "Status code:"; AInt (status_code r)] ∈ page (run f get ui).1.
Proof.
  intros Hsel Hget.
  destruct (decide (status_code r = 200)) as [H200|H200].
  - rewrite (run_200 f get ui c Hsel r Hget H200), H200.
    destruct (dados ← json r; shape f dados); cbn; set_solver.
  - rewrite (run_not_200 f get ui c Hsel r Hget H200). cbn. set_solver.
Qed.

Lemma status_code_always_shown_witness :
  Write [AStr "Status code:"; AInt 200]
  ∈ page (run no_float_path (answers (success three_hours)) None).1.
Proof.
  apply (status_code_always_shown no_float_path (answers (success three_hours))
           None "bitcoin" (success three_hours)); reflexivity.
Defined.

(** C4: when the response has a status code other than 200, the page is
    the header, the status line with exactly that code and the one fixed
    error message; no chart and no table is drawn, the script ends
    normally, and nothing of the response but its code reaches the page. *)
Theorem failure_shows_only_status_and_error
    (f : spec_float → result Timestamp) (get : request → result response)
    (ui : option nat) (c : string) (r : response) :
  moedas !! default 0%nat ui = Some c →
  get (market_chart_request c) = Ok r →
  status_code r ≠ 200 →
  run f get ui
  = ({| page := header ui ++ [Write [AStr "Status code:"; AInt (status_code r)];
                              Error "Erro ao buscar dados da API"];
        sent := [market_chart_request c] |}, Ok ())
  ∧ (∀ df, LineChart df ∉ page (run f get ui).1)
  ∧ (∀ df, Write [AFrame df] ∉ page (run f get ui).1).
Proof.
  intros Hsel Hget H200.
  rewrite (run_not_200 f get ui c Hsel r Hget H200).
  split; [reflexivity|]. cbn.
  split; intros df Hin; repeat (apply elem_of_cons in Hin as [Hin|Hin]; [discriminate|]);
    now apply elem_of_nil in Hin.
Qed.

Lemma failure_shows_only_status_and_error_witness :
  let get := answers {| status_code := 404; json := Raise JSONDecodeError |} in
  run no_float_path get (Some 1%nat)
  = ({| page := header (Some 1%nat) ++ [Write [AStr "Status code:"; AInt 404];
                                        Error "Erro ao buscar dados da API"];
        sent := [market_chart_request "ethereum"] |}, Ok ())
  ∧ (∀ df, LineChart df ∉ page (run no_float_path get (Some 1%nat)).1)
  ∧ (∀ df, Write [AFrame df] ∉ page (run no_float_path get (Some 1%nat)).1).
Proof.
  apply (failure_shows_only_status_and_error no_float_path
           (answers {| status_code := 404; json := Raise JSONDecodeError |})
           (Some 1%nat) "ethereum"
           {| status_code := 404; json := Raise JSONDecodeError |}).
  - reflexivity.
  - reflexivity.
  - discriminate.
Defined.

(** C9: the error message is drawn exactly when a response came back with
    a status code other than 200, and in no other case.  A transport
    exception of the HTTP call ends the page load with that exception
    after the header; a 200 payload without the field "prices" ends it
    with the KeyError after the status line; neither draws an error
    message. *)
Theorem other_failures_propagate
    (f : spec_float → result Timestamp) (get : request → result response)
    (ui : option nat) (c : string) :
  moedas !! default 0%nat ui = Some c →
  (∀ e, get (market_chart_request c) = Raise e →
        run f get ui
        = ({| page := header ui; sent := [market_chart_request c] |}, Raise e))
  ∧ (∀ r dados, get (market_chart_request c) = Ok r →
        status_code r = 200 → json r = Ok dados → dados !! "prices" = None →
        run f get ui
        = ({| page := header ui ++ [Write [AStr "Status code:"; AInt 200]];
              sent := [market_chart_request c] |}, Raise (KeyError "prices")))
  ∧ ((∃ body, Error body ∈ page (run f get ui).1)
     ↔ ∃ r, get (market_chart_request c) = Ok r ∧ status_code r ≠ 200).
Proof.
  intros Hsel. split; [|split].
  - intros e Hget. exact (run_no_response f get ui c Hsel e Hget).
  - intros r dados Hget H200 Hjson Hnone.
    rewrite (run_200 f get ui c Hsel r Hget H200), Hjson.
    cbn [mbind result_bind]. now rewrite (shape_missing f dados Hnone).
  - destruct (get (market_chart_request c)) as [r|e] eqn:Hget.
    + destruct (decide (status_code r = 200)) as [H200|H200].
      * rewrite (run_200 f get ui c Hsel r Hget H200). split.
        -- intros [body Hin]. exfalso.
           destruct (dados ← json r; shape f dados); cbn in Hin;
             repeat (apply elem_of_cons in Hin as [Hin|Hin]; [discriminate|]);
             now apply elem_of_nil in Hin.
        -- intros (r' & [= <-] & Hne). contradiction.
      * rewrite (run_not_200 f get ui c Hsel r Hget H200). split.
        -- intros _. now exists r.
        -- intros _. exists "Erro ao buscar dados da API". cbn. set_solver.
    + rewrite (run_no_response f get ui c Hsel e Hget). split.
      * intros [body Hin]. exfalso. cbn in Hin.
        repeat (apply elem_of_cons in Hin as [Hin|Hin]; [discriminate|]).
        now apply elem_of_nil in Hin.
      * intros (r & [=] & _).
Qed.

Lemma other_failures_propagate_witness :
  run no_float_path unreachable None
  = ({| page := header None; sent := [market_chart_request "bitcoin"] |},
     Raise (RequestException "connection refused"))
  ∧ run no_float_path
        (answers {| status_code := 200; json := Ok {["market_caps" := three_hours]} |})
        None
    = ({| page := header None ++ [Write [AStr "Status code:"; AInt 200]];
          sent := [market_chart_request "bitcoin"] |}, Raise (KeyError "prices")).
Proof.
  split.
  - apply (other_failures_propagate no_float_path unreachable None "bitcoin");
      reflexivity.
  - destruct (other_failures_propagate no_float_path
                (answers {| status_code := 200;
                            json := Ok {["market_caps" := three_hours]} |})
                None "bitcoin" eq_refl) as (_ & Hmissing & _).
    apply (Hmissing {| status_code := 200;
                       json := Ok {["market_caps" := three_hours]} |}
                    {["market_caps" := three_hours]}); reflexivity.
Defined.

(** C10: for a 200 response whose "prices" array is empty, shaping raises
    nothing and yields the table with zero rows, and the page load ends
    normally after drawing the chart and the tail of that empty table. *)
Theorem empty_series_renders_empty
    (f : spec_float → result Timestamp) (get : request → result response)
    (ui : option nat) (c : string) (r : response) (dados : gmap string series) :
  moedas !! default 0%nat ui = Some c →
  get (market_chart_request c) = Ok r →
  status_code r = 200 →
  json r = Ok dados →
  dados !! "prices" = Some [] →
  let empty := {| index := ColumnIndex "timestamp" (Datetime64 []);
                  columns := [("price", Float64 [])] |} in
  shape f dados = Ok empty
  ∧ nrows empty = 0%nat
  ∧ nrows (tail 5 empty) = 0%nat
  ∧ run f get ui
    = ({| page := header ui ++ [Write [AStr "Status code:"; AInt 200];
                                LineChart empty;
                                Write [AFrame (tail 5 empty)]];
          sent := [market_chart_request c] |}, Ok ()).
Proof.
  intros Hsel Hget H200 Hjson Hprices empty.
  assert (Hshape : shape f dados = Ok empty).
  { now rewrite (shape_representable f dados [] Hprices) by constructor. }
  split; [exact Hshape|]. split; [reflexivity|]. split; [reflexivity|].
  rewrite (run_200 f get ui c Hsel r Hget H200), Hjson.
  cbn [mbind result_bind]. now rewrite Hshape.
Qed.

Lemma empty_series_renders_empty_witness :
  let empty := {| index := ColumnIndex "timestamp" (Datetime64 []);
                  columns := [("price", Float64 [])] |} in
  shape no_float_path {["prices" := []]} = Ok empty
  ∧ nrows empty = 0%nat
  ∧ nrows (tail 5 empty) = 0%nat
  ∧ run no_float_path (answers (success [])) None
    = ({| page := header None ++ [Write [AStr "Status code:"; AInt 200];
                                  LineChart empty;
                                  Write [AFrame (tail 5 empty)]];
          sent := [market_chart_request "bitcoin"] |}, Ok ()).
Proof.
  apply (empty_series_renders_empty no_float_path (answers (success [])) None
           "bitcoin" (success []) {["prices" := []]}); reflexivity.
Defined.

(** C2, as amended: for a 200 response whose "prices" array holds N pairs
    with every time representable in datetime64[ns], shaping yields a
    table of exactly N rows in the order of the array, whose index
    "timestamp" is each time read as milliseconds since the epoch and
    whose only column is "price"; that table is the one charted. *)
Theorem shaped_table_of_series
    (f : spec_float → result Timestamp) (get : request → result response)
    (ui : option nat) (c : string) (r : response) (dados : gmap string series)
    (pts : series) :
  moedas !! default 0%nat ui = Some c →
  get (market_chart_request c) = Ok r →
  status_code r = 200 →
  json r = Ok dados →
  dados !! "prices" = Some pts →
  Forall representable pts.*1 →
  ∃ df, shape f dados = Ok df
      ∧ nrows df = length pts
      ∧ index df = ColumnIndex "timestamp" (Datetime64 (stamp_of_ms <$> pts.*1))
      ∧ columns df = [("price", Float64 pts.*2)]
      ∧ LineChart df ∈ page (run f get ui).1.
Proof.
  intros Hsel Hget H200 Hjson Hprices Hrep.
  pose proof (shape_representable f dados pts Hprices Hrep) as Hshape.
  exists (shaped pts). split; [exact Hshape|].
  split; [apply nrows_shaped|]. split; [reflexivity|]. split; [reflexivity|].
  rewrite (run_200 f get ui c Hsel r Hget H200), Hjson.
  cbn [mbind result_bind]. rewrite Hshape. cbn. set_solver.
Qed.

Lemma shaped_table_of_series_witness :
  ∃ df, shape no_float_path {["prices" := three_hours]} = Ok df
      ∧ nrows df = 3%nat
      ∧ index df = ColumnIndex "timestamp"
                     (Datetime64 [mkTimestamp 1700000000000000000;
                                  mkTimestamp 1700003600000000000;
                                  mkTimestamp 1700007200000000000])
      ∧ columns df = [("price", Float64 [one; two; one])]
      ∧ LineChart df ∈ page (run no_float_path (answers (success three_hours)) None).1.
Proof.
  apply (shaped_table_of_series no_float_path (answers (success three_hours)) None
           "bitcoin" (success three_hours) {["prices" := three_hours]} three_hours);
    try reflexivity.
  repeat constructor; discriminate.
Defined.

(** C2 fails as stated: a 200 response with one pair whose time is beyond
    the range of datetime64[ns] is not shaped into a one-row table; the
    conversion raises and the page load ends with that exception. *)
Lemma shaping_raises_out_of_range :
  (run no_float_path (answers (success beyond_int64)) None).2
  = Raise OutOfBoundsDatetime
  ∧ ¬ ∃ df, shape no_float_path {["prices" := beyond_int64]} = Ok df
            ∧ nrows df = length beyond_int64.
Proof.
  split; [reflexivity|]. intros (df & Hshape & _). discriminate Hshape.
Qed.

(** C3, as amended: for a 200 response whose "prices" array holds N pairs
    with every time representable, the tail display shows exactly
    min(5, N) rows, the last ones of the shaped table in table order; they
    are the chronologically last rows when the array is in time order. *)
Theorem tail_shows_last_rows
    (f : spec_float → result Timestamp) (get : request → result response)
    (ui : option nat) (c : string) (r : response) (dados : gmap string series)
    (pts : series) :
  moedas !! default 0%nat ui = Some c →
  get (market_chart_request c) = Ok r →
  status_code r = 200 →
  json r = Ok dados →
  dados !! "prices" = Some pts →
  Forall representable pts.*1 →
  ∃ df, shape f dados = Ok df
      ∧ Write [AFrame (tail 5 df)] ∈ page (run f get ui).1
      ∧ nrows (tail 5 df) = (5 `min` length pts)%nat
      ∧ tail 5 df = shaped (drop (length pts - 5) pts)
      ∧ (ascending pts.*1 →
         chronologically_last (index_stamps df) (index_stamps (tail 5 df))).
Proof.
  intros Hsel Hget H200 Hjson Hprices Hrep.
  pose proof (shape_representable f dados pts Hprices Hrep) as Hshape.
  exists (shaped pts). split; [exact Hshape|]. split; [|split; [|split]].
  - rewrite (run_200 f get ui c Hsel r Hget H200), Hjson.
    cbn [mbind result_bind]. rewrite Hshape. cbn. set_solver.
  - now rewrite tail_shaped, nrows_shaped, last_n_length.
  - apply tail_shaped.
  - intros Hasc. rewrite tail_shaped. unfold index_stamps, shaped. cbn [index].
    rewrite <- last_n_fmap. now apply ascending_last_n.
Qed.

Lemma tail_shows_last_rows_witness :
  ∃ df, shape no_float_path {["prices" := three_hours]} = Ok df
      ∧ Write [AFrame (tail 5 df)]
        ∈ page (run no_float_path (answers (success three_hours)) None).1
      ∧ nrows (tail 5 df) = 3%nat
      ∧ tail 5 df = shaped three_hours
      ∧ (ascending three_hours.*1 →
         chronologically_last (index_stamps df) (index_stamps (tail 5 df))).
Proof.
  apply (tail_shows_last_rows no_float_path (answers (success three_hours)) None
           "bitcoin" (success three_hours) {["prices" := three_hours]} three_hours);
    try reflexivity.
  repeat constructor; discriminate.
Defined.

(** C3 fails as stated in two ways.  On six pairs whose latest comes
    first the five rows shown are the last in table order, and the latest
    row of the table is not among them; and on a pair whose time is out of
    range no tail is drawn at all. *)
Lemma tail_is_positional_not_chronological :
  (∃ df, shape no_float_path {["prices" := latest_first]} = Ok df
       ∧ index_stamps (tail 5 df) = stamp_of_ms <$> [1000; 2000; 3000; 4000; 5000]
       ∧ ¬ chronologically_last (index_stamps df) (index_stamps (tail 5 df)))
  ∧ (∀ df, Write [AFrame df]
           ∉ page (run no_float_path (answers (success beyond_int64)) None).1).
Proof.
  split.
  - exists (shaped latest_first). split; [reflexivity|]. split; [reflexivity|].
    intros (others & Hperm & Hle).
    assert (Hin : stamp_of_ms 6000 ∈ index_stamps (shaped latest_first))
      by (cbn; set_solver).
    rewrite Hperm in Hin. apply elem_of_app in Hin as [Hin|Hin].
    + specialize (Hle (stamp_of_ms 6000) (stamp_of_ms 1000) Hin).
      assert (Hshown : stamp_of_ms 1000 ∈ index_stamps (tail 5 (shaped latest_first)))
        by (cbn; set_solver).
      specialize (Hle Hshown). vm_compute in Hle. now apply Hle.
    + cbn in Hin.
      repeat (apply elem_of_cons in Hin as [Hin|Hin]; [discriminate|]).
      now apply elem_of_nil in Hin.
  - intros df Hin. cbn in Hin.
    repeat (apply elem_of_cons in Hin as [Hin|Hin]; [discriminate|]).
    now apply elem_of_nil in Hin.
Qed.

(** C5, as amended: for every epoch-millisecond integer whose nanosecond
    count fits datetime64[ns], the conversion yields a timestamp, and
    reading that timestamp back as epoch-milliseconds gives the original
    integer exactly. *)
Theorem epoch_ms_round_trip (t : Z) :
  representable t →
  ∃ ts, to_datetime_ms t = Ok ts ∧ to_epoch_ms ts = t.
Proof.
  intros Ht. exists (stamp_of_ms t). split.
  - now apply to_datetime_ms_representable.
  - unfold to_epoch_ms, stamp_of_ms, ns_per_ms. cbn [value].
    now rewrite Z.div_mul.
Qed.

Lemma epoch_ms_round_trip_witness :
  ∃ ts, to_datetime_ms 1700000000000 = Ok ts ∧ to_epoch_ms ts = 1700000000000.
Proof.
  apply (epoch_ms_round_trip 1700000000000). split; [reflexivity | discriminate].
Defined.

(** C5 fails as stated: an integer beyond the range has no timestamp to
    read back, the conversion raises. *)
Lemma no_round_trip_out_of_range :
  to_datetime_ms 1000000000000000000000000000000 = Raise OutOfBoundsDatetime
  ∧ ¬ ∃ ts, to_datetime_ms 1000000000000000000000000000000 = Ok ts
            ∧ to_epoch_ms ts = 1000000000000000000000000000000.
Proof.
  split; [reflexivity|]. intros (ts & Hconv & _). discriminate Hconv.
Qed.

Ltac reduce_in_place :=
  cbv beta iota zeta delta [mbind mret InPlace_bind InPlace_ret call alloc
                            read_dict read_frame write_frame].

(** One run of lines 18 to 20 on the heap: the payload stays where it is
    and as it is, and the new frame, at the end of the heap, is the table
    of [shape]. *)
Lemma shape_in_place_run
    (f : spec_float → result Timestamp) (h : heap) (dados : nat)
    (payload : gmap string series) :
  h !! dados = Some (Dict payload) →
  match shape f payload with
  | Ok df => shape_in_place f dados h = Some (h ++ [Frame df], Ok (length h))
  | Raise e => ∃ garbage, shape_in_place f dados h = Some (h ++ garbage, Raise e)
  end.
Proof.
  intros Hdados. unfold shape_in_place. reduce_in_place. rewrite Hdados.
  destruct (payload !! "prices") as [pts|] eqn:Hp.
  - rewrite (shape_prices f payload pts Hp).
    unfold dict_getitem. rewrite Hp.
    rewrite (list_lookup_middle h [] _ (length h) eq_refl).
    change (getitem (pd_DataFrame pts "timestamp" "price") "timestamp")
      with (Ok (Int64 pts.*1)).
    cbn [pd_to_datetime_ms mbind result_bind].
    destruct (traverse to_datetime_ms pts.*1) as [stamps|e] eqn:Ht;
      cbn [mbind result_bind].
    + rewrite (list_lookup_middle h [] _ (length h) eq_refl).
      rewrite insert_app_r_alt; [|lia].
      rewrite Nat.sub_diag. cbn [insert list_insert].
      rewrite (list_lookup_middle h [] _ (length h) eq_refl).
      change (set_index
                (setitem (pd_DataFrame pts "timestamp" "price") "timestamp"
                   (Datetime64 stamps)) "timestamp")
        with (Ok {| index := ColumnIndex "timestamp" (Datetime64 stamps);
                    columns := [("price", Float64 pts.*2)] |}).
      cbv beta iota.
      rewrite (list_lookup_middle h [] _ (length h) eq_refl).
      rewrite insert_app_r_alt; [|lia].
      rewrite Nat.sub_diag. reflexivity.
    + now exists [Frame (pd_DataFrame pts "timestamp" "price")].
  - rewrite (shape_missing f payload Hp).
    unfold dict_getitem. rewrite Hp. exists []. now rewrite app_nil_r.
Qed.

(** C6: running the shaping step of lines 18 to 20 twice in a row on the
    same payload object produces identical tables: each run builds a frame
    of its own and changes only that frame in place, so the two references
    differ, both frames hold the same table, the second run leaves the
    first table as it was, and the payload is untouched.  When the step
    raises, it raises at the first run and the payload is untouched. *)
Theorem shaping_twice_identical_tables
    (f : spec_float → result Timestamp) (h : heap) (dados : nat)
    (payload : gmap string series) :
  h !! dados = Some (Dict payload) →
  (∀ df, shape f payload = Ok df →
         shape_twice f dados h
         = Some (h ++ [Frame df; Frame df], Ok (length h, S (length h))))
  ∧ (∀ e, shape f payload = Raise e →
          ∃ h', shape_twice f dados h = Some (h', Raise e)
                ∧ h' !! dados = Some (Dict payload)).
Proof.
  intros Hdados. unfold shape_twice.
  pose proof (shape_in_place_run f h dados payload Hdados) as Hfirst.
  split.
  - intros df Hshape. rewrite Hshape in Hfirst.
    assert (Hdados' : (h ++ [Frame df]) !! dados = Some (Dict payload))
      by now apply lookup_app_l_Some.
    pose proof (shape_in_place_run f (h ++ [Frame df]) dados payload Hdados')
      as Hsecond.
    rewrite Hshape in Hsecond.
    cbv beta iota zeta delta [mbind mret InPlace_bind InPlace_ret].
    rewrite Hfirst, Hsecond. rewrite <- app_assoc, length_app. cbn [length app].
    now rewrite Nat.add_1_r.
  - intros e Hshape. rewrite Hshape in Hfirst.
    destruct Hfirst as [garbage Hfirst]. exists (h ++ garbage).
    cbv beta iota zeta delta [mbind mret InPlace_bind InPlace_ret].
    rewrite Hfirst. split; [reflexivity | now apply lookup_app_l_Some].
Qed.

Lemma shaping_twice_identical_tables_witness :
  shape_twice no_float_path 0 [Dict {["prices" := three_hours]}]
  = Some ([Dict {["prices" := three_hours]};
           Frame (shaped three_hours); Frame (shaped three_hours)],
          Ok (1%nat, 2%nat))
  ∧ ∃ h', shape_twice no_float_path 0 [Dict {["prices" := beyond_int64]}]
          = Some (h', Raise OutOfBoundsDatetime)
          ∧ h' !! 0%nat = Some (Dict {["prices" := beyond_int64]}).
Proof.
  split.
  - destruct (shaping_twice_identical_tables no_float_path
                [Dict {["prices" := three_hours]}] 0 {["prices" := three_hours]}
                eq_refl) as [Hok _].
    apply (Hok (shaped three_hours)). reflexivity.
  - destruct (shaping_twice_identical_tables no_float_path
                [Dict {["prices" := beyond_int64]}] 0 {["prices" := beyond_int64]}
                eq_refl) as [_ Hraise].
    apply (Hraise OutOfBoundsDatetime). reflexivity.
Defined.

(** ** Further properties of the script *)

Lemma traverse_to_datetime_ms_inv (ts : list Z) (l : list Timestamp) :
  traverse to_datetime_ms ts = Ok l →
  Forall representable ts ∧ l = stamp_of_ms <$> ts.
Proof.
  revert l. induction ts as [|t ts IH]; intros l; cbn [traverse].
  - intros [= <-]. split; [constructor | reflexivity].
  - destruct (to_datetime_ms t) as [s|e] eqn:Et; cbn [mbind result_bind];
      [|discriminate].
    destruct (traverse to_datetime_ms ts) as [l'|e] eqn:El; cbn [mbind result_bind];
      [|discriminate].
    intros [= <-]. apply to_datetime_ms_inv in Et as [Hr ->].
    destruct (IH l' eq_refl) as [HF ->].
    split; [now constructor | reflexivity].
Qed.

Lemma traverse_to_datetime_ms_raise (ts : list Z) (e : exn) :
  traverse to_datetime_ms ts = Raise e →
  e = OutOfBoundsDatetime ∧ ∃ t, t ∈ ts ∧ ¬ representable t.
Proof.
  induction ts as [|t ts IH]; cbn [traverse]; [discriminate|].
  destruct (to_datetime_ms t) as [s|e0] eqn:Et; cbn [mbind result_bind].
  - destruct (traverse to_datetime_ms ts) as [l'|e'] eqn:El; cbn [mbind result_bind];
      [discriminate|].
    intros [= <-]. destruct (IH eq_refl) as (-> & t' & Hin & Hnot).
    split; [reflexivity|]. exists t'. split; [now right | exact Hnot].
  - intros [= <-]. unfold to_datetime_ms in Et.
    destruct (fits_datetime64 (t * ns_per_ms)) eqn:Ef; [discriminate|].
    injection Et as <-. split; [reflexivity|]. exists t. split; [now left|].
    intros Hr. apply fits_datetime64_spec in Hr. congruence.
Qed.

Lemma string_app_length (a b : string) :
  String.length (a +:+ b) = (String.length a + String.length b)%nat.
Proof. induction a as [|x a IH]; simpl; [reflexivity | now f_equal]. Qed.

Lemma string_app_inv_head (s a b : string) : s +:+ a = s +:+ b → a = b.
Proof. induction s as [|x s IH]; cbn; [done|]. intros [= H]. now apply IH. Qed.

Lemma string_app_inv_tail (a b s : string) : a +:+ s = b +:+ s → a = b.
Proof.
  revert b. induction a as [|x a IH]; intros [|y b] H.
  - reflexivity.
  - apply (f_equal String.length) in H.
    rewrite !string_app_length in H. simpl in H. lia.
  - apply (f_equal String.length) in H.
    rewrite !string_app_length in H. simpl in H. lia.
  - cbn in H. injection H as -> H. f_equal. now apply IH.
Qed.

Lemma pairs_eq_of_projections {A B} (l l' : list (A * B)) :
  l.*1 = l'.*1 → l.*2 = l'.*2 → l = l'.
Proof.
  revert l'. induction l as [|[a b] l IH]; intros [|[a' b'] l']; cbn;
    try discriminate; [reflexivity|].
  intros [= -> H1] [= -> H2]. f_equal. now apply IH.
Qed.

Lemma stamp_of_ms_inj (ts ts' : list Z) :
  stamp_of_ms <$> ts = stamp_of_ms <$> ts' → ts = ts'.
Proof.
  revert ts'. induction ts as [|t ts IH]; intros [|t' ts']; cbn;
    try discriminate; [reflexivity|].
  unfold stamp_of_ms at 1 3, ns_per_ms. intros [= Ht H]. f_equal; [lia | now apply IH].
Qed.

Lemma shape_ok_inv
    (f : spec_float → result Timestamp) (dados : gmap string series)
    (df : DataFrame) :
  shape f dados = Ok df →
  ∃ pts, dados !! "prices" = Some pts
         ∧ Forall representable pts.*1
         ∧ df = shaped pts.
Proof.
  intros Hshape. destruct (dados !! "prices") as [pts|] eqn:Hd.
  - rewrite (shape_prices f dados pts Hd) in Hshape.
    destruct (traverse to_datetime_ms pts.*1) as [stamps|e] eqn:Ht;
      cbn [mbind result_bind] in Hshape; [|discriminate].
    apply traverse_to_datetime_ms_inv in Ht as [Hrep ->].
    injection Hshape as <-. now exists pts.
  - now rewrite (shape_missing f dados Hd) in Hshape.
Qed.

Lemma shape_raise_inv
    (f : spec_float → result Timestamp) (dados : gmap string series) (e : exn) :
  shape f dados = Raise e →
  (e = KeyError "prices" ∧ dados !! "prices" = None)
  ∨ (e = OutOfBoundsDatetime
     ∧ ∃ pts t, dados !! "prices" = Some pts ∧ t ∈ pts.*1 ∧ ¬ representable t).
Proof.
  intros Hshape. destruct (dados !! "prices") as [pts|] eqn:Hd.
  - right. rewrite (shape_prices f dados pts Hd) in Hshape.
    destruct (traverse to_datetime_ms pts.*1) as [stamps|e'] eqn:Ht;
      cbn [mbind result_bind] in Hshape; [discriminate|].
    injection Hshape as <-.
    apply traverse_to_datetime_ms_raise in Ht as (-> & t & Hin & Hnot).
    split; [reflexivity|]. now exists pts, t.
  - left. rewrite (shape_missing f dados Hd) in Hshape.
    injection Hshape as <-. now split.
Qed.

(** X3: shaping reads nothing of the payload but its field "prices": two
    payloads that agree on it are shaped alike, whatever else they hold. *)
Theorem shape_reads_prices_only
    (f : spec_float → result Timestamp) (dados dados' : gmap string series) :
  dados !! "prices" = dados' !! "prices" →
  shape f dados = shape f dados'.
Proof.
  intros Heq. destruct (dados !! "prices") as [pts|] eqn:Hd; symmetry in Heq.
  - now rewrite (shape_prices f dados pts Hd), (shape_prices f dados' pts Heq).
  - now rewrite (shape_missing f dados Hd), (shape_missing f dados' Heq).
Qed.

Lemma shape_reads_prices_only_witness :
  shape no_float_path {["prices" := three_hours]}
  = shape no_float_path (<["market_caps" := latest_first]> {["prices" := three_hours]}).
Proof.
  apply (shape_reads_prices_only no_float_path {["prices" := three_hours]}
           (<["market_caps" := latest_first]> {["prices" := three_hours]})).
  reflexivity.
Defined.

(** X4: within the representable range shaping loses nothing of the
    series: two payloads whose times are all representable and that are
    shaped alike have the same "prices" array. *)
Theorem shape_injective
    (f : spec_float → result Timestamp) (dados dados' : gmap string series)
    (pts pts' : series) :
  dados !! "prices" = Some pts →
  dados' !! "prices" = Some pts' →
  Forall representable pts.*1 →
  Forall representable pts'.*1 →
  shape f dados = shape f dados' →
  pts = pts'.
Proof.
  intros Hd Hd' Hrep Hrep' Heq.
  rewrite (shape_representable f dados pts Hd Hrep) in Heq.
  rewrite (shape_representable f dados' pts' Hd' Hrep') in Heq.
  injection Heq as H1 H2.
  apply pairs_eq_of_projections; [now apply stamp_of_ms_inj | exact H2].
Qed.

Lemma shape_injective_witness : three_hours = three_hours.
Proof.
  apply (shape_injective no_float_path {["prices" := three_hours]}
           (<["total_volumes" := latest_first]> {["prices" := three_hours]})
           three_hours three_hours); try reflexivity;
    repeat constructor; discriminate.
Defined.

Lemma ascending_scale (ts : list Z) :
  ascending ts ↔ ascending ((λ t, t * ns_per_ms) <$> ts).
Proof.
  unfold ascending, ns_per_ms. split.
  - intros Hasc i j a b Hij Ha Hb.
    rewrite list_lookup_fmap in Ha, Hb.
    destruct (ts !! i) as [a0|] eqn:Ei; [|discriminate].
    destruct (ts !! j) as [b0|] eqn:Ej; [|discriminate].
    injection Ha as <-. injection Hb as <-.
    pose proof (Hasc i j a0 b0 Hij Ei Ej). lia.
  - intros Hasc i j a b Hij Ha Hb.
    assert (a * 1000000 ≤ b * 1000000); [|lia].
    apply (Hasc i j); [exact Hij| |]; rewrite list_lookup_fmap.
    + now rewrite Ha.
    + now rewrite Hb.
Qed.

(** X5: within the representable range shaping keeps the order of time:
    the instants of the table's index are in ascending order exactly when
    the times of the "prices" array are. *)
Theorem shape_keeps_time_order
    (f : spec_float → result Timestamp) (dados : gmap string series)
    (pts : series) (df : DataFrame) :
  dados !! "prices" = Some pts →
  Forall representable pts.*1 →
  shape f dados = Ok df →
  ascending pts.*1 ↔ ascending (value <$> index_stamps df).
Proof.
  intros Hd Hrep Hshape.
  rewrite (shape_representable f dados pts Hd Hrep) in Hshape.
  injection Hshape as <-. unfold index_stamps, shaped. cbn [index].
  rewrite <- list_fmap_compose. apply ascending_scale.
Qed.

Lemma shape_keeps_time_order_witness :
  ascending three_hours.*1
  ↔ ascending (value <$> index_stamps (shaped three_hours)).
Proof.
  apply (shape_keeps_time_order no_float_path {["prices" := three_hours]}
           three_hours (shaped three_hours)); try reflexivity.
  repeat constructor; discriminate.
Defined.

Lemma bind_shape_ok
    (f : spec_float → result Timestamp) (r : response) (df : DataFrame) :
  (dados ← json r; shape f dados) = Ok df
  ↔ ∃ dados, json r = Ok dados ∧ shape f dados = Ok df.
Proof.
  destruct (json r) as [d|e]; cbn [mbind result_bind]; split.
  - intros H. now exists d.
  - now intros (d' & [= <-] & H).
  - discriminate.
  - now intros (d' & [=] & _).
Qed.

(** The four ways a page load can go. *)
Lemma run_cases
    (f : spec_float → result Timestamp) (get : request → result response)
    (ui : option nat) (c : string) :
  moedas !! default 0%nat ui = Some c →
  (∃ e, get (market_chart_request c) = Raise e
        ∧ run f get ui
          = ({| page := header ui; sent := [market_chart_request c] |}, Raise e))
  ∨ (∃ r, get (market_chart_request c) = Ok r ∧ status_code r ≠ 200
          ∧ run f get ui
            = ({| page := header ui ++ [status_line (status_code r);
                                        Error "Erro ao buscar dados da API"];
                  sent := [market_chart_request c] |}, Ok ()))
  ∨ (∃ r e, get (market_chart_request c) = Ok r ∧ status_code r = 200
            ∧ (dados ← json r; shape f dados) = Raise e
            ∧ run f get ui
              = ({| page := header ui ++ [status_line 200];
                    sent := [market_chart_request c] |}, Raise e))
  ∨ (∃ r df, get (market_chart_request c) = Ok r ∧ status_code r = 200
             ∧ (dados ← json r; shape f dados) = Ok df
             ∧ run f get ui
               = ({| page := header ui ++ [status_line 200; LineChart df;
                                           Write [AFrame (tail 5 df)]];
                     sent := [market_chart_request c] |}, Ok ())).
Proof.
  intros Hsel. destruct (get (market_chart_request c)) as [r|e] eqn:Hget.
  - destruct (decide (status_code r = 200)) as [H200|H200].
    + pose proof (run_200 f get ui c Hsel r Hget H200) as Hrun.
      destruct (dados ← json r; shape f dados) as [df|e] eqn:Hsh.
      * right. right. right. now exists r, df.
      * right. right. left. now exists r, e.
    + right. left. exists r.
      now rewrite (run_not_200 f get ui c Hsel r Hget H200).
  - left. exists e. now rewrite (run_no_response f get ui c Hsel e Hget).
Qed.

Ltac not_on_page H :=
  cbn in H;
  repeat (apply elem_of_cons in H as [H|H]; [discriminate|]);
  now apply elem_of_nil in H.

(** X6: whatever the server does, the page begins with the title and the
    select box, in that order, and holds at most three more elements. *)
Theorem page_starts_with_header
    (f : spec_float → result Timestamp) (get : request → result response)
    (ui : option nat) (c : string) :
  moedas !! default 0%nat ui = Some c →
  ∃ rest, page (run f get ui).1 = header ui ++ rest ∧ (length rest ≤ 3)%nat.
Proof.
  intros Hsel.
  destruct (run_cases f get ui c Hsel)
    as [(e & _ & ->)|[(r & _ & _ & ->)|[(r & e & _ & _ & _ & ->)|(r & df & _ & _ & _ & ->)]]].
  - exists []. split; [now rewrite app_nil_r | cbn; lia].
  - eexists. split; [reflexivity | cbn; lia].
  - eexists. split; [reflexivity | cbn; lia].
  - eexists. split; [reflexivity | cbn; lia].
Qed.

Lemma page_starts_with_header_witness :
  ∃ rest, page (run no_float_path unreachable (Some 1%nat)).1
          = header (Some 1%nat) ++ rest ∧ (length rest ≤ 3)%nat.
Proof.
  apply (page_starts_with_header no_float_path unreachable (Some 1%nat) "ethereum").
  reflexivity.
Defined.

(** X7: a page load ends without an exception exactly when a response came
    back and either its status code is not 200 or its body decodes and is
    shaped into a table. *)
Theorem run_ends_normally_iff
    (f : spec_float → result Timestamp) (get : request → result response)
    (ui : option nat) (c : string) :
  moedas !! default 0%nat ui = Some c →
  (run f get ui).2 = Ok ()
  ↔ ∃ r, get (market_chart_request c) = Ok r
         ∧ (status_code r ≠ 200
            ∨ ∃ dados df, json r = Ok dados ∧ shape f dados = Ok df).
Proof.
  intros Hsel.
  destruct (run_cases f get ui c Hsel)
    as [(e & Hget & ->)|[(r & Hget & H200 & ->)
       |[(r & e & Hget & H200 & Hsh & ->)|(r & df & Hget & H200 & Hsh & ->)]]];
    cbn [snd]; split.
  - discriminate.
  - intros (r & Hr & _). congruence.
  - intros _. exists r. split; [exact Hget | now left].
  - reflexivity.
  - discriminate.
  - intros (r' & Hr & [Hne|(d & df & Hj & Hs)]).
    + congruence.
    + assert (r' = r) as -> by congruence.
      assert ((dados ← json r; shape f dados) = Ok df)
        by (apply bind_shape_ok; now exists d).
      congruence.
  - intros _. exists r. split; [exact Hget|]. right.
    apply bind_shape_ok in Hsh as (d & Hj & Hs). now exists d, df.
  - reflexivity.
Qed.

Lemma run_ends_normally_iff_witness :
  (run no_float_path (answers (success three_hours)) None).2 = Ok ()
  ↔ ∃ r, answers (success three_hours) (market_chart_request "bitcoin") = Ok r
         ∧ (status_code r ≠ 200
            ∨ ∃ dados df, json r = Ok dados ∧ shape no_float_path dados = Ok df).
Proof.
  apply (run_ends_normally_iff no_float_path (answers (success three_hours))
           None "bitcoin").
  reflexivity.
Defined.

(** X8: a table is charted exactly when the response has status 200, its
    body decodes, and that table is the shaped payload. *)
Theorem chart_drawn_iff
    (f : spec_float → result Timestamp) (get : request → result response)
    (ui : option nat) (c : string) (df : DataFrame) :
  moedas !! default 0%nat ui = Some c →
  LineChart df ∈ page (run f get ui).1
  ↔ ∃ r dados, get (market_chart_request c) = Ok r ∧ status_code r = 200
               ∧ json r = Ok dados ∧ shape f dados = Ok df.
Proof.
  intros Hsel.
  destruct (run_cases f get ui c Hsel)
    as [(e & Hget & ->)|[(r & Hget & H200 & ->)
       |[(r & e & Hget & H200 & Hsh & ->)|(r & df' & Hget & H200 & Hsh & ->)]]];
    cbn [fst page]; split.
  - intros Hin. not_on_page Hin.
  - intros (r & d & Hr & _). congruence.
  - intros Hin. not_on_page Hin.
  - intros (r' & d & Hr & H200' & _). congruence.
  - intros Hin. not_on_page Hin.
  - intros (r' & d & Hr & _ & Hj & Hs).
    assert (r' = r) as -> by congruence.
    assert ((dados ← json r; shape f dados) = Ok df)
      by (apply bind_shape_ok; now exists d).
    congruence.
  - intros Hin. cbn in Hin.
    repeat (apply elem_of_cons in Hin as [Hin|Hin]; [try discriminate|]).
    + injection Hin as ->. apply bind_shape_ok in Hsh as (d & Hj & Hs).
      now exists r, d.
    + now apply elem_of_nil in Hin.
  - intros (r' & d & Hr & _ & Hj & Hs).
    assert (r' = r) as -> by congruence.
    assert ((dados ← json r; shape f dados) = Ok df)
      by (apply bind_shape_ok; now exists d).
    assert (df' = df) as -> by congruence.
    cbn. set_solver.
Qed.

Lemma chart_drawn_iff_witness :
  LineChart (shaped three_hours)
  ∈ page (run no_float_path (answers (success three_hours)) None).1
  ↔ ∃ r dados, answers (success three_hours) (market_chart_request "bitcoin") = Ok r
               ∧ status_code r = 200 ∧ json r = Ok dados
               ∧ shape no_float_path dados = Ok (shaped three_hours).
Proof.
  apply (chart_drawn_iff no_float_path (answers (success three_hours)) None
           "bitcoin" (shaped three_hours)).
  reflexivity.
Defined.

(** X9: no page load draws both a chart and the error message. *)
Theorem never_chart_and_error
    (f : spec_float → result Timestamp) (get : request → result response)
    (ui : option nat) (c : string) (df : DataFrame) (body : string) :
  moedas !! default 0%nat ui = Some c →
  ¬ (LineChart df ∈ page (run f get ui).1 ∧ Error body ∈ page (run f get ui).1).
Proof.
  intros Hsel [Hchart Herr].
  destruct (run_cases f get ui c Hsel)
    as [(e & _ & Hrun)|[(r & _ & _ & Hrun)
       |[(r & e & _ & _ & _ & Hrun)|(r & df' & _ & _ & _ & Hrun)]]];
    rewrite Hrun in Hchart, Herr; cbn [fst page] in Hchart, Herr.
  - not_on_page Hchart.
  - not_on_page Hchart.
  - not_on_page Hchart.
  - not_on_page Herr.
Qed.

Lemma never_chart_and_error_witness :
  ¬ (LineChart (shaped three_hours)
       ∈ page (run no_float_path (answers (success three_hours)) None).1
     ∧ Error "Erro ao buscar dados da API"
       ∈ page (run no_float_path (answers (success three_hours)) None).1).
Proof.
  apply (never_chart_and_error no_float_path (answers (success three_hours)) None
           "bitcoin" (shaped three_hours) "Erro ao buscar dados da API").
  reflexivity.
Defined.

(** X10: when the body of a 200 response does not decode, the exception
    of response.json() ends the page load right after the status line:
    no chart, no table and no error message are drawn. *)
Theorem undecodable_body_propagates
    (f : spec_float → result Timestamp) (get : request → result response)
    (ui : option nat) (c : string) (r : response) (e : exn) :
  moedas !! default 0%nat ui = Some c →
  get (market_chart_request c) = Ok r →
  status_code r = 200 →
  json r = Raise e →
  run f get ui
  = ({| page := header ui ++ [Write [AStr "Status code:"; AInt 200]];
        sent := [market_chart_request c] |}, Raise e).
Proof.
  intros Hsel Hget H200 Hjson.
  now rewrite (run_200 f get ui c Hsel r Hget H200), Hjson.
Qed.

Lemma undecodable_body_propagates_witness :
  run no_float_path (answers {| status_code := 200; json := Raise JSONDecodeError |})
      (Some 2%nat)
  = ({| page := header (Some 2%nat) ++ [Write [AStr "Status code:"; AInt 200]];
        sent := [market_chart_request "dogecoin"] |}, Raise JSONDecodeError).
Proof.
  apply (undecodable_body_propagates no_float_path
           (answers {| status_code := 200; json := Raise JSONDecodeError |})
           (Some 2%nat) "dogecoin"
           {| status_code := 200; json := Raise JSONDecodeError |} JSONDecodeError);
    reflexivity.
Defined.

(** X11: on a 200 response whose payload is shaped into a table, the page
    is exactly the title, the select box, the status line, the chart of
    that table and the five-row tail of the same table, in this order, and
    the page load ends normally. *)
Theorem success_page
    (f : spec_float → result Timestamp) (get : request → result response)
    (ui : option nat) (c : string) (r : response) (dados : gmap string series)
    (df : DataFrame) :
  moedas !! default 0%nat ui = Some c →
  get (market_chart_request c) = Ok r →
  status_code r = 200 →
  json r = Ok dados →
  shape f dados = Ok df →
  run f get ui
  = ({| page := header ui ++ [Write [AStr "Status code:"; AInt 200];
                              LineChart df;
                              Write [AFrame (tail 5 df)]];
        sent := [market_chart_request c] |}, Ok ()).
Proof.
  intros Hsel Hget H200 Hjson Hshape.
  rewrite (run_200 f get ui c Hsel r Hget H200), Hjson.
  cbn [mbind result_bind]. now rewrite Hshape.
Qed.

Lemma success_page_witness :
  run no_float_path (answers (success latest_first)) None
  = ({| page := header None ++ [Write [AStr "Status code:"; AInt 200];
                                LineChart (shaped latest_first);
                                Write [AFrame (tail 5 (shaped latest_first))]];
        sent := [market_chart_request "bitcoin"] |}, Ok ()).
Proof.
  apply (success_page no_float_path (answers (success latest_first)) None
           "bitcoin" (success latest_first) {["prices" := latest_first]}
           (shaped latest_first)); reflexivity.
Defined.

(** X12: one time of the "prices" array that the conversion refuses (not
    representable, the NaT sentinel and the unsigned range above the
    signed one set aside; a date after the year 2262 is one), at any place
    in the array, ends the page load with OutOfBoundsDatetime right after
    the status line; nothing of the series is drawn. *)
Theorem refused_time_propagates
    (f : spec_float → result Timestamp) (get : request → result response)
    (ui : option nat) (c : string) (r : response) (dados : gmap string series)
    (pts : series) (t : Z) :
  moedas !! default 0%nat ui = Some c →
  get (market_chart_request c) = Ok r →
  status_code r = 200 →
  json r = Ok dados →
  dados !! "prices" = Some pts →
  t ∈ pts.*1 →
  refused t →
  run f get ui
  = ({| page := header ui ++ [Write [AStr "Status code:"; AInt 200]];
        sent := [market_chart_request c] |}, Raise OutOfBoundsDatetime).
Proof.
  intros Hsel Hget H200 Hjson Hd Hin [Hnot _].
  rewrite (run_200 f get ui c Hsel r Hget H200), Hjson.
  cbn [mbind result_bind].
  destruct (shape f dados) as [df|e] eqn:Hshape.
  - exfalso. apply shape_ok_inv in Hshape as (pts' & Hd' & Hrep & _).
    assert (Some pts' = Some pts) as [= ->]
      by (transitivity (dados !! "prices"); [symmetry; exact Hd' | exact Hd]).
    rewrite Forall_forall in Hrep. apply Hnot, Hrep. exact Hin.
  - apply shape_raise_inv in Hshape as [[_ Hnone]|[-> _]]; [|reflexivity].
    exfalso.
    assert (Some pts = None) as [=]
      by (transitivity (dados !! "prices"); [symmetry; exact Hd | exact Hnone]).
Qed.

Lemma refused_time_propagates_witness :
  run no_float_path
      (answers (success (three_hours ++ [(10413792000000, one)]))) None
  = ({| page := header None ++ [Write [AStr "Status code:"; AInt 200]];
        sent := [market_chart_request "bitcoin"] |}, Raise OutOfBoundsDatetime).
Proof.
  apply (refused_time_propagates no_float_path
           (answers (success (three_hours ++ [(10413792000000, one)]))) None
           "bitcoin" (success (three_hours ++ [(10413792000000, one)]))
           {["prices" := three_hours ++ [(10413792000000, one)]]}
           (three_hours ++ [(10413792000000, one)])
           10413792000000); try reflexivity.
  - cbn. set_solver.
  - unfold refused, representable. vm_compute.
    split; [|split]; [intros [_ H]; now apply H | discriminate | intros [H _]; discriminate H].
Defined.

(** X13: the request identifies the currency: two different identifiers
    are never fetched from the same URL. *)
Theorem request_identifies_currency (a b : string) :
  a ≠ b → url (market_chart_request a) ≠ url (market_chart_request b).
Proof.
  intros Hne Heq. apply Hne.
  unfold market_chart_request, market_chart_url, format in Heq.
  cbn [url default] in Heq.
  apply string_app_inv_head in Heq. now apply string_app_inv_tail in Heq.
Qed.

Lemma request_identifies_currency_witness :
  url (market_chart_request "bitcoin") ≠ url (market_chart_request "ethereum").
Proof.
  apply (request_identifies_currency "bitcoin" "ethereum"). discriminate.
Defined.

Lemma last_n_all {A} (n : nat) (l : list A) :
  (length l ≤ n)%nat → last_n n l = l.
Proof.
  intros Hle. unfold last_n.
  replace (length l - n)%nat with 0%nat by lia. reflexivity.
Qed.

(** X14: when the "prices" array holds at most five pairs, all of them
    representable, the tail display shows the whole table: the chart and
    the tail are drawn from the same rows. *)
Theorem short_series_tail_is_whole_table
    (f : spec_float → result Timestamp) (get : request → result response)
    (ui : option nat) (c : string) (r : response) (dados : gmap string series)
    (pts : series) :
  moedas !! default 0%nat ui = Some c →
  get (market_chart_request c) = Ok r →
  status_code r = 200 →
  json r = Ok dados →
  dados !! "prices" = Some pts →
  Forall representable pts.*1 →
  (length pts ≤ 5)%nat →
  run f get ui
  = ({| page := header ui ++ [Write [AStr "Status code:"; AInt 200];
                              LineChart (shaped pts);
                              Write [AFrame (shaped pts)]];
        sent := [market_chart_request c] |}, Ok ()).
Proof.
  intros Hsel Hget H200 Hjson Hd Hrep Hlen.
  rewrite (run_200 f get ui c Hsel r Hget H200), Hjson.
  cbn [mbind result_bind]. rewrite (shape_representable f dados pts Hd Hrep).
  now rewrite tail_shaped, last_n_all.
Qed.

Lemma short_series_tail_is_whole_table_witness :
  run no_float_path (answers (success three_hours)) None
  = ({| page := header None ++ [Write [AStr "Status code:"; AInt 200];
                                LineChart (shaped three_hours);
                                Write [AFrame (shaped three_hours)]];
        sent := [market_chart_request "bitcoin"] |}, Ok ()).
Proof.
  apply (short_series_tail_is_whole_table no_float_path
           (answers (success three_hours)) None "bitcoin" (success three_hours)
           {["prices" := three_hours]} three_hours); try reflexivity.
  - repeat constructor; discriminate.
  - cbn. lia.
Defined.
